(** * Retirement projection engine: [compute_projection] of retirement.py

    A shallow embedding of the projection engine and the properties its
    year-by-year table and summary metrics satisfy.

    Number model.  Python [int]s are [Z].  Monetary amounts and rates are
    Python [float]s in the source; they are taken here as exact rationals
    ([Q], compared with [==]), so the theorems speak about the formulas the
    code evaluates and not about binary64 rounding or range (a scalar power
    beyond the binary64 range raises OverflowError).  A quotient with a zero
    divisor, which numpy evaluates to inf or nan without raising, is the
    rational [x / 0] (that is [0]); it only arises for rates of -100% or
    -200%.  Scalar Python operations that raise on a zero divisor are
    modelled with their exception. *)

From Stdlib Require Import ZArith QArith Qminmax Qpower Qfield Lqa Lia.
From Stdlib Require Import List Bool.
Import ListNotations.

Local Open Scope Z_scope.

(** ** Python scalars *)

Module Py.

Inductive exn : Set :=
| ZeroDivisionError.

Inductive result (A : Type) : Type :=
| Ok (a : A)
| Raise (e : exn).
Arguments Ok {A} a.
Arguments Raise {A} e.

Definition bind {A B : Type} (c : result A) (k : A -> result B) : result B :=
  match c with
  | Ok a => k a
  | Raise e => Raise e
  end.

(** [range(start, stop)]: empty as soon as [stop <= start]. *)
Definition range (start stop : Z) : list Z :=
  map (fun k => start + Z.of_nat k) (seq 0 (Z.to_nat (stop - start))).

Definition len {A : Type} (l : list A) : Z := Z.of_nat (length l).

(** [max(a, b)] returns its first argument unless the second is greater. *)
Definition max (a b : Q) : Q := if Qle_bool b a then a else b.

(** [x ** n] on a float and an int: a zero base with a negative exponent
    raises. *)
Definition float_pow (x : Q) (n : Z) : result Q :=
  if Qeq_bool x 0 && (n <? 0) then Raise ZeroDivisionError else Ok (x ^ n)%Q.

(** [x / y] on floats: a zero divisor raises. *)
Definition float_truediv (x y : Q) : result Q :=
  if Qeq_bool y 0 then Raise ZeroDivisionError else Ok (x / y)%Q.

End Py.

Notation "x <- c ;; k" := (Py.bind c (fun x => k))
  (at level 61, c at next level, right associativity).

(** ** numpy scalars and pandas columns

    Element-wise operations never raise: they yield inf or nan with a
    warning where the scalar operation would raise. *)

Module Np.

Definition power (x : Q) (n : Z) : Q := (x ^ n)%Q.

Definition true_divide (x y : Q) : Q := (x / y)%Q.

End Np.

Module Series.

(** A scalar broadcast over a column: [f] is the operation with the scalar
    operand fixed. *)
Definition broadcast {A B : Type} (f : A -> B) (s : list A) : list B :=
  map f s.

(** A binary operation between two columns of one frame. *)
Fixpoint elementwise {A B C : Type} (f : A -> B -> C)
         (s : list A) (t : list B) : list C :=
  match s, t with
  | x :: s', y :: t' => f x y :: elementwise f s' t'
  | _, _ => []
  end.

(** [s.clip(lower=lo)]. *)
Definition clip_lower (lo : Q) (s : list Q) : list Q :=
  map (fun x => if Qle_bool lo x then x else lo) s.

(** [s.sum()]. *)
Definition sum (s : list Q) : Q := fold_left Qplus s 0%Q.

(** [df.loc[mask, col]]: the entries of the rows the mask selects. *)
Fixpoint loc {A : Type} (mask : list bool) (s : list A) : list A :=
  match mask, s with
  | b :: mask', x :: s' => if b then x :: loc mask' s' else loc mask' s'
  | _, _ => []
  end.

(** [df.loc[mask, col] = vals]: [vals] carries the index labels of the
    selected rows in order, so the alignment by label writes its entries in
    order into the selected rows and leaves the others as they are.  Every
    use below passes one entry per selected row; for a shorter [vals] pandas
    writes NaN, which the rationals do not have, and the old entry stays. *)
Fixpoint set_loc {A : Type} (mask : list bool) (s vals : list A) : list A :=
  match mask, s with
  | b :: mask', x :: s' =>
      if b then
        match vals with
        | v :: vals' => v :: set_loc mask' s' vals'
        | [] => x :: set_loc mask' s' []
        end
      else x :: set_loc mask' s' vals
  | _, _ => s
  end.

End Series.

(** ** The projection table *)

Module ProjectionRow.

Record t : Type := mk {
  Year : Z;
  Ret_Year_Index : Z;
  Age : Z;
  Target_Income : Q;
  Pension_1 : Q;
  Pension_2 : Q;
  Social_Security : Q;
  Total_Fixed_Income : Q;
  Shortfall : Q;
  PV_of_Shortfall : Q
}.

End ProjectionRow.

Module DataFrame.

Record t : Type := mk {
  Year : list Z;
  Ret_Year_Index : list Z;
  Age : list Z;
  Target_Income : list Q;
  Pension_1 : list Q;
  Pension_2 : list Q;
  Social_Security : list Q;
  Total_Fixed_Income : list Q;
  Shortfall : list Q;
  PV_of_Shortfall : list Q
}.

(** [len(df)]. *)
Definition len (d : t) : Z := Py.len (Year d).

Definition opt_bind {A B : Type} (o : option A) (k : A -> option B)
  : option B :=
  match o with
  | Some a => k a
  | None => None
  end.

(** [df.iloc[i]]: the row at position [i], if there is one. *)
Definition iloc (d : t) (i : nat) : option ProjectionRow.t :=
  opt_bind (nth_error (Year d) i) (fun y =>
  opt_bind (nth_error (Ret_Year_Index d) i) (fun k =>
  opt_bind (nth_error (Age d) i) (fun a =>
  opt_bind (nth_error (Target_Income d) i) (fun ti =>
  opt_bind (nth_error (Pension_1 d) i) (fun p1 =>
  opt_bind (nth_error (Pension_2 d) i) (fun p2 =>
  opt_bind (nth_error (Social_Security d) i) (fun ss =>
  opt_bind (nth_error (Total_Fixed_Income d) i) (fun tfi =>
  opt_bind (nth_error (Shortfall d) i) (fun sh =>
  opt_bind (nth_error (PV_of_Shortfall d) i) (fun pv =>
  Some (ProjectionRow.mk y k a ti p1 p2 ss tfi sh pv))))))))))).

(** The rows in order, as [df.itertuples()] yields them. *)
Definition rows (d : t) : list ProjectionRow.t :=
  flat_map (fun i => match iloc d i with Some r => [r] | None => [] end)
    (seq 0 (length (Year d))).

End DataFrame.

(** The tuple [compute_projection] returns, with the names its docstring
    gives the components. *)
Module Projection.

Record t : Type := mk {
  df : DataFrame.t;
  total_needed_at_retirement : Q;
  fv_current_savings : Q;
  remaining_needed : Q;
  annual_savings_needed : Q;
  years_to_retirement : Z;
  retirement_age : Z
}.

End Projection.

(** ** compute_projection *)

Section compute_projection.

Variables (current_year current_age : Z) (current_savings : Q).
Variables (retirement_start_year retirement_years : Z).
Variables (base_income_need inflation cola investment_return : Q).
Variables (p1_start_value : Q) (p1_start_age : Z).
Variables (p2_start_value : Q) (p2_start_age : Z).
Variables (ss_start_value : Q) (ss_start_age : Z).

(* Derived values *)
Definition retirement_end_year : Z :=
  retirement_start_year + retirement_years - 1.

Definition retirement_years_range : list Z :=
  Py.range retirement_start_year (retirement_end_year + 1).

Definition ret_index : list Z :=
  Py.range 0 (Py.len retirement_years_range).

Definition years_to_retirement : Z :=
  retirement_start_year - current_year.

(* Build DataFrame *)
Definition Year : list Z := retirement_years_range.

Definition Ret_Year_Index : list Z := ret_index.

Definition Age : list Z :=
  Series.broadcast (Z.add current_age)
    (Series.broadcast (fun y => y - current_year) Year).

(* Target income (inflated) *)
Definition Target_Income : list Q :=
  Series.broadcast (Qmult base_income_need)
    (Series.broadcast (Np.power (1 + inflation))
       (Series.broadcast (Z.add years_to_retirement) Ret_Year_Index)).

(** The three age-based streams are written out three times in the source
    with one shape: a column of zeros, the mask [Age >= start_age], and the
    masked assignment of [start_value * (1 + cola) ** (Age - start_age)]. *)
Definition fixed_income (start_value : Q) (start_age : Z) : list Q :=
  let zeros := Series.broadcast (fun _ : Z => 0%Q) Year in
  let mask := Series.broadcast (fun a => start_age <=? a) Age in
  Series.set_loc mask zeros
    (Series.broadcast (Qmult start_value)
       (Series.broadcast (Np.power (1 + cola))
          (Series.broadcast (fun a => a - start_age) (Series.loc mask Age)))).

(* Pension 1 (age-based start) *)
Definition Pension_1 : list Q := fixed_income p1_start_value p1_start_age.

(* Pension 2 (age-based start) *)
Definition Pension_2 : list Q := fixed_income p2_start_value p2_start_age.

(* Social Security (age-based start) *)
Definition Social_Security : list Q := fixed_income ss_start_value ss_start_age.

(* Totals and shortfall *)
Definition Total_Fixed_Income : list Q :=
  Series.elementwise Qplus (Series.elementwise Qplus Pension_1 Pension_2)
    Social_Security.

Definition Shortfall : list Q :=
  Series.clip_lower 0
    (Series.elementwise Qminus Target_Income Total_Fixed_Income).

(* Present Value of shortfall *)
Definition PV_of_Shortfall : list Q :=
  Series.elementwise Np.true_divide Shortfall
    (Series.broadcast (Np.power (1 + investment_return)) Ret_Year_Index).

Definition df : DataFrame.t :=
  DataFrame.mk Year Ret_Year_Index Age Target_Income Pension_1 Pension_2
    Social_Security Total_Fixed_Income Shortfall PV_of_Shortfall.

Definition total_needed_at_retirement : Q :=
  Series.sum (DataFrame.PV_of_Shortfall df).

(** Savings calculation: the block that sets [fv_current_savings],
    [remaining_needed] and [annual_savings_needed], in that order.  The
    remaining need is a numpy scalar when it is not zero, so the two
    divisions of it are numpy's. *)
Definition savings_calculation : Py.result (Q * Q * Q) :=
  if years_to_retirement <=? 0 then
    let fv_current_savings := current_savings in
    let remaining_needed :=
      Py.max 0 (total_needed_at_retirement - fv_current_savings) in
    let annual_savings_needed := 0%Q in
    Py.Ok (fv_current_savings, remaining_needed, annual_savings_needed)
  else
    growth <- Py.float_pow (1 + investment_return) years_to_retirement ;;
    let fv_current_savings := (current_savings * growth)%Q in
    let remaining_needed :=
      Py.max 0 (total_needed_at_retirement - fv_current_savings) in
    if Qeq_bool remaining_needed 0 then
      Py.Ok (fv_current_savings, remaining_needed, 0%Q)
    else
      let r := investment_return in
      let n := years_to_retirement in
      if Qeq_bool r 0 then
        Py.Ok (fv_current_savings, remaining_needed,
               Np.true_divide remaining_needed (inject_Z n))
      else
        compound <- Py.float_pow (1 + r) n ;;
        annuity_factor <- Py.float_truediv (compound - 1) r ;;
        Py.Ok (fv_current_savings, remaining_needed,
               Np.true_divide remaining_needed annuity_factor).

Definition compute_projection : Py.result Projection.t :=
  s <- savings_calculation ;;
  let '(fv_current_savings, remaining_needed, annual_savings_needed) := s in
  let retirement_age := current_age + years_to_retirement in
  Py.Ok (Projection.mk df total_needed_at_retirement fv_current_savings
           remaining_needed annual_savings_needed years_to_retirement
           retirement_age).

(** *** The table read row by row

    What the vectorised steps compute at one position [k]; [iloc_df] below
    proves that row [k] of [df] is [row_at k]. *)

Definition age_at (k : nat) : Z :=
  current_age + (retirement_start_year + Z.of_nat k - current_year).

Definition fixed_income_at (start_value : Q) (start_age : Z) (k : nat) : Q :=
  if start_age <=? age_at k
  then (start_value * Np.power (1 + cola) (age_at k - start_age))%Q
  else 0%Q.

Definition target_income_at (k : nat) : Q :=
  (base_income_need
   * Np.power (1 + inflation) (years_to_retirement + Z.of_nat k))%Q.

Definition total_fixed_income_at (k : nat) : Q :=
  (fixed_income_at p1_start_value p1_start_age k
   + fixed_income_at p2_start_value p2_start_age k
   + fixed_income_at ss_start_value ss_start_age k)%Q.

Definition shortfall_at (k : nat) : Q :=
  let gap := (target_income_at k - total_fixed_income_at k)%Q in
  if Qle_bool 0 gap then gap else 0%Q.

Definition row_at (k : nat) : ProjectionRow.t :=
  ProjectionRow.mk (retirement_start_year + Z.of_nat k) (Z.of_nat k) (age_at k)
    (target_income_at k)
    (fixed_income_at p1_start_value p1_start_age k)
    (fixed_income_at p2_start_value p2_start_age k)
    (fixed_income_at ss_start_value ss_start_age k)
    (total_fixed_income_at k) (shortfall_at k)
    (Np.true_divide (shortfall_at k)
       (Np.power (1 + investment_return) (Z.of_nat k))).

(** ** Columns as maps over the positions *)

Lemma nth_error_map_seq {A : Type} (f : nat -> A) (n i : nat) :
  nth_error (map f (seq 0 n)) i = if (i <? n)%nat then Some (f i) else None.
Proof.
  rewrite nth_error_map.
  destruct (i <? n)%nat eqn:E.
  - apply Nat.ltb_lt in E. rewrite nth_error_seq.
    apply Nat.ltb_lt in E. rewrite E. reflexivity.
  - apply Nat.ltb_ge in E.
    replace (nth_error (seq 0 n) i) with (@None nat); [reflexivity|].
    symmetry. apply nth_error_None. rewrite length_seq. exact E.
Qed.

Lemma loc_map {I A : Type} (m : I -> bool) (f : I -> A) (l : list I) :
  Series.loc (map m l) (map f l) = map f (filter m l).
Proof.
  induction l as [|x l IH]; simpl; [reflexivity|].
  destruct (m x); simpl; rewrite IH; reflexivity.
Qed.

Lemma set_loc_map {I A : Type} (m : I -> bool) (h g : I -> A) (l : list I) :
  Series.set_loc (map m l) (map h l) (map g (filter m l))
  = map (fun x => if m x then g x else h x) l.
Proof.
  induction l as [|x l IH]; simpl; [reflexivity|].
  destruct (m x); simpl; rewrite IH; reflexivity.
Qed.

Lemma elementwise_map {I A B C : Type} (f : A -> B -> C)
      (F : I -> A) (G : I -> B) (l : list I) :
  Series.elementwise f (map F l) (map G l) = map (fun x => f (F x) (G x)) l.
Proof.
  induction l as [|x l IH]; simpl; [reflexivity|].
  rewrite IH; reflexivity.
Qed.

Lemma Year_map :
  Year = map (fun k => retirement_start_year + Z.of_nat k)
             (seq 0 (Z.to_nat retirement_years)).
Proof.
  unfold Year, retirement_years_range, retirement_end_year, Py.range.
  do 2 f_equal. lia.
Qed.

Lemma Ret_Year_Index_map :
  Ret_Year_Index = map Z.of_nat (seq 0 (Z.to_nat retirement_years)).
Proof.
  unfold Ret_Year_Index, ret_index. fold Year. rewrite Year_map.
  unfold Py.range, Py.len. rewrite length_map, length_seq.
  replace (Z.to_nat (Z.of_nat (Z.to_nat retirement_years) - 0))
    with (Z.to_nat retirement_years) by lia.
  apply map_ext. intros k. reflexivity.
Qed.

Lemma Age_map : Age = map age_at (seq 0 (Z.to_nat retirement_years)).
Proof.
  unfold Age, Series.broadcast. rewrite Year_map, !map_map. reflexivity.
Qed.

Lemma Target_Income_map :
  Target_Income = map target_income_at (seq 0 (Z.to_nat retirement_years)).
Proof.
  unfold Target_Income, Series.broadcast.
  rewrite Ret_Year_Index_map, !map_map. reflexivity.
Qed.

Lemma fixed_income_map (start_value : Q) (start_age : Z) :
  fixed_income start_value start_age
  = map (fixed_income_at start_value start_age)
        (seq 0 (Z.to_nat retirement_years)).
Proof.
  unfold fixed_income, Series.broadcast.
  rewrite Age_map, Year_map, !map_map, loc_map, !map_map.
  rewrite (set_loc_map (fun k => start_age <=? age_at k) (fun _ => 0%Q)
             (fun k => (start_value
                        * Np.power (1 + cola) (age_at k - start_age))%Q)).
  reflexivity.
Qed.

Lemma Total_Fixed_Income_map :
  Total_Fixed_Income
  = map total_fixed_income_at (seq 0 (Z.to_nat retirement_years)).
Proof.
  unfold Total_Fixed_Income, Pension_1, Pension_2, Social_Security.
  rewrite !fixed_income_map, !elementwise_map. reflexivity.
Qed.

Lemma Shortfall_map :
  Shortfall = map shortfall_at (seq 0 (Z.to_nat retirement_years)).
Proof.
  unfold Shortfall, Series.clip_lower.
  rewrite Target_Income_map, Total_Fixed_Income_map, elementwise_map, map_map.
  reflexivity.
Qed.

Lemma PV_of_Shortfall_map :
  PV_of_Shortfall
  = map (fun k => ProjectionRow.PV_of_Shortfall (row_at k))
        (seq 0 (Z.to_nat retirement_years)).
Proof.
  unfold PV_of_Shortfall, Series.broadcast.
  rewrite Shortfall_map, Ret_Year_Index_map, map_map, elementwise_map.
  reflexivity.
Qed.

Lemma iloc_df (i : nat) :
  DataFrame.iloc df i
  = if (i <? Z.to_nat retirement_years)%nat then Some (row_at i) else None.
Proof.
  unfold DataFrame.iloc, df; cbn [DataFrame.Year DataFrame.Ret_Year_Index
    DataFrame.Age DataFrame.Target_Income DataFrame.Pension_1
    DataFrame.Pension_2 DataFrame.Social_Security
    DataFrame.Total_Fixed_Income DataFrame.Shortfall
    DataFrame.PV_of_Shortfall].
  unfold Pension_1, Pension_2, Social_Security.
  rewrite Year_map, Ret_Year_Index_map, Age_map, Target_Income_map,
    !fixed_income_map, Total_Fixed_Income_map, Shortfall_map,
    PV_of_Shortfall_map, !nth_error_map_seq.
  destruct (i <? Z.to_nat retirement_years)%nat; reflexivity.
Qed.

Lemma iloc_df_inv (i : nat) (row : ProjectionRow.t) :
  DataFrame.iloc df i = Some row ->
  (i < Z.to_nat retirement_years)%nat /\ row = row_at i.
Proof.
  rewrite iloc_df.
  destruct (i <? Z.to_nat retirement_years)%nat eqn:E; [|discriminate].
  intros H. injection H as <-. apply Nat.ltb_lt in E. auto.
Qed.

Lemma len_df : DataFrame.len df = Z.max 0 retirement_years.
Proof.
  unfold DataFrame.len, Py.len, df; cbn [DataFrame.Year].
  rewrite Year_map, length_map, length_seq. lia.
Qed.

Lemma rows_df :
  DataFrame.rows df = map row_at (seq 0 (Z.to_nat retirement_years)).
Proof.
  unfold DataFrame.rows.
  replace (length (DataFrame.Year df)) with (Z.to_nat retirement_years).
  2:{ unfold df; cbn [DataFrame.Year].
      rewrite Year_map, length_map, length_seq. reflexivity. }
  assert (G : forall l,
            (forall i, In i l -> (i < Z.to_nat retirement_years)%nat) ->
            flat_map (fun i => match DataFrame.iloc df i with
                               | Some r => [r]
                               | None => []
                               end) l = map row_at l).
  { induction l as [|x l IH]; intros Hl; simpl; [reflexivity|].
    rewrite iloc_df.
    assert (Hx : (x <? Z.to_nat retirement_years)%nat = true)
      by (apply Nat.ltb_lt, Hl; left; reflexivity).
    rewrite Hx, IH; [reflexivity|].
    intros i Hi. apply Hl. right. exact Hi. }
  apply G. intros i Hi. apply in_seq in Hi. lia.
Qed.

(** ** The function always returns *)

Lemma compute_projection_returns :
  let fv :=
    if years_to_retirement <=? 0 then current_savings
    else (current_savings * (1 + investment_return) ^ years_to_retirement)%Q in
  let rem := Py.max 0 (total_needed_at_retirement - fv) in
  let ann :=
    if years_to_retirement <=? 0 then 0%Q
    else if Qeq_bool rem 0 then 0%Q
    else if Qeq_bool investment_return 0
         then (rem / inject_Z years_to_retirement)%Q
         else (rem / (((1 + investment_return) ^ years_to_retirement - 1)
                      / investment_return))%Q in
  compute_projection
  = Py.Ok (Projection.mk df total_needed_at_retirement fv rem ann
             years_to_retirement (current_age + years_to_retirement)).
Proof.
  intros fv rem ann. subst fv rem ann.
  unfold compute_projection, savings_calculation.
  destruct (years_to_retirement <=? 0) eqn:E; [reflexivity|].
  apply Z.leb_gt in E.
  unfold Py.float_pow.
  replace (years_to_retirement <? 0) with false
    by (symmetry; apply Z.ltb_ge; lia).
  rewrite andb_false_r. cbn [Py.bind].
  destruct (Qeq_bool _ 0) eqn:ER; [reflexivity|].
  destruct (Qeq_bool investment_return 0) eqn:Er; [reflexivity|].
  cbn [Py.bind]. unfold Py.float_truediv. rewrite Er. reflexivity.
Qed.

(** ** Python's and pandas' floors against the mathematical maximum *)


Lemma clip_Qmax (lo x : Q) : ((if Qle_bool lo x then x else lo) == Qmax lo x)%Q.
Proof.
  destruct (Qle_bool lo x) eqn:E.
  - apply Qle_bool_iff in E. symmetry. apply Q.max_r. exact E.
  - assert (H : (x <= lo)%Q).
    { destruct (Qlt_le_dec x lo) as [H|H]; [apply Qlt_le_weak; exact H|].
      apply Qle_bool_iff in H. congruence. }
    symmetry. apply Q.max_l. exact H.
Qed.

Lemma sum_fold_right (s : list Q) :
  (Series.sum s == fold_right Qplus 0 s)%Q.
Proof.
  unfold Series.sum.
  assert (G : forall a, (fold_left Qplus s a == a + fold_right Qplus 0 s)%Q).
  { induction s as [|x s IH]; intros a; simpl; [ring|].
    rewrite IH. ring. }
  rewrite G. ring.
Qed.

Lemma Qpower_succ (a : Q) (n : Z) :
  ~ (a == 0)%Q -> (a ^ (n + 1) == a ^ n * a)%Q.
Proof.
  intros Ha. rewrite Qpower_plus by exact Ha. reflexivity.
Qed.

(** ** Properties of the result *)

Ltac returned :=
  eexists; split; [apply compute_projection_returns|];
  cbn [Projection.df Projection.total_needed_at_retirement
       Projection.fv_current_savings Projection.remaining_needed
       Projection.annual_savings_needed Projection.years_to_retirement
       Projection.retirement_age].

Ltac row_of H :=
  apply iloc_df_inv in H; destruct H as [? ->];
  cbn [row_at ProjectionRow.Year ProjectionRow.Ret_Year_Index
       ProjectionRow.Age ProjectionRow.Target_Income ProjectionRow.Pension_1
       ProjectionRow.Pension_2 ProjectionRow.Social_Security
       ProjectionRow.Total_Fixed_Income ProjectionRow.Shortfall
       ProjectionRow.PV_of_Shortfall].

(** C2. With [retirement_years >= 1] the function returns a table of exactly
    [retirement_years] rows, and row [i] has
    [Year = retirement_start_year + i], [Ret_Year_Index = i] and
    [Age = current_age + (Year - current_year)]. *)
Theorem C2_row_count_and_index_columns :
  1 <= retirement_years ->
  exists p, compute_projection = Py.Ok p /\
    DataFrame.len (Projection.df p) = retirement_years /\
    Py.len (DataFrame.rows (Projection.df p)) = retirement_years /\
    forall i, 0 <= i < retirement_years ->
      exists row,
        DataFrame.iloc (Projection.df p) (Z.to_nat i) = Some row /\
        ProjectionRow.Year row = retirement_start_year + i /\
        ProjectionRow.Ret_Year_Index row = i /\
        ProjectionRow.Age row
        = current_age + (ProjectionRow.Year row - current_year).
Proof.
  intros Hry. returned.
  split; [rewrite len_df; lia|].
  split.
  { rewrite rows_df. unfold Py.len. rewrite length_map, length_seq. lia. }
  intros i Hi. exists (row_at (Z.to_nat i)). rewrite iloc_df.
  replace (Z.to_nat i <? Z.to_nat retirement_years)%nat with true
    by (symmetry; apply Nat.ltb_lt; lia).
  cbn [row_at ProjectionRow.Year ProjectionRow.Ret_Year_Index
       ProjectionRow.Age].
  unfold age_at.
  rewrite Z2Nat.id by lia. auto.
Qed.

(** C3. In every row of every result,
    [Target_Income] is [base_income_need * (1 + inflation) ^ e] for
    [e = years_to_retirement + Ret_Year_Index],
    with [years_to_retirement = retirement_start_year - current_year]; the
    exponent of the row at position [i] is [years_to_retirement + i], so
    inflation goes on compounding through the retirement years. *)
Theorem C3_target_income_formula :
  exists p, compute_projection = Py.Ok p /\
    Projection.years_to_retirement p = retirement_start_year - current_year /\
    forall (i : nat) row,
      DataFrame.iloc (Projection.df p) i = Some row ->
      ProjectionRow.Ret_Year_Index row = Z.of_nat i /\
      (ProjectionRow.Target_Income row
       == base_income_need
          * (1 + inflation)
            ^ (Projection.years_to_retirement p
               + ProjectionRow.Ret_Year_Index row))%Q.
Proof.
  returned. split; [reflexivity|].
  intros i row H. row_of H. split; reflexivity.
Qed.

(** C4. In every row, each of the three streams is [0] while [Age] is below
    its start age and [start_value * (1 + cola) ^ (Age - start_age)] from the
    start age on, and [Total_Fixed_Income] is the sum of the three. *)
Theorem C4_fixed_income_streams :
  exists p, compute_projection = Py.Ok p /\
    forall (i : nat) row,
      DataFrame.iloc (Projection.df p) i = Some row ->
      (ProjectionRow.Age row < p1_start_age ->
       (ProjectionRow.Pension_1 row == 0)%Q) /\
      (p1_start_age <= ProjectionRow.Age row ->
       (ProjectionRow.Pension_1 row
        == p1_start_value
           * (1 + cola) ^ (ProjectionRow.Age row - p1_start_age))%Q) /\
      (ProjectionRow.Age row < p2_start_age ->
       (ProjectionRow.Pension_2 row == 0)%Q) /\
      (p2_start_age <= ProjectionRow.Age row ->
       (ProjectionRow.Pension_2 row
        == p2_start_value
           * (1 + cola) ^ (ProjectionRow.Age row - p2_start_age))%Q) /\
      (ProjectionRow.Age row < ss_start_age ->
       (ProjectionRow.Social_Security row == 0)%Q) /\
      (ss_start_age <= ProjectionRow.Age row ->
       (ProjectionRow.Social_Security row
        == ss_start_value
           * (1 + cola) ^ (ProjectionRow.Age row - ss_start_age))%Q) /\
      (ProjectionRow.Total_Fixed_Income row
       == ProjectionRow.Pension_1 row + ProjectionRow.Pension_2 row
          + ProjectionRow.Social_Security row)%Q.
Proof.
  returned. intros i row H. row_of H.
  unfold total_fixed_income_at, fixed_income_at, Np.power.
  repeat split; try reflexivity; intros Hage.
  - destruct (p1_start_age <=? age_at i) eqn:E;
      [apply Z.leb_le in E; lia|reflexivity].
  - apply Z.leb_le in Hage. rewrite Hage. reflexivity.
  - destruct (p2_start_age <=? age_at i) eqn:E;
      [apply Z.leb_le in E; lia|reflexivity].
  - apply Z.leb_le in Hage. rewrite Hage. reflexivity.
  - destruct (ss_start_age <=? age_at i) eqn:E;
      [apply Z.leb_le in E; lia|reflexivity].
  - apply Z.leb_le in Hage. rewrite Hage. reflexivity.
Qed.

(** C5. In every row, [Shortfall = max(0, Target_Income - Total_Fixed_Income)],
    computed from that row alone: it is never negative, and it is [0] in a
    year whose fixed income covers the target, whatever the other years
    are. *)
Theorem C5_shortfall_floor :
  exists p, compute_projection = Py.Ok p /\
    forall (i : nat) row,
      DataFrame.iloc (Projection.df p) i = Some row ->
      (ProjectionRow.Shortfall row
       == Qmax 0 (ProjectionRow.Target_Income row
                  - ProjectionRow.Total_Fixed_Income row))%Q /\
      (0 <= ProjectionRow.Shortfall row)%Q /\
      ((ProjectionRow.Target_Income row
        <= ProjectionRow.Total_Fixed_Income row)%Q ->
       (ProjectionRow.Shortfall row == 0)%Q).
Proof.
  returned. intros i row H. row_of H.
  unfold shortfall_at. cbv zeta.
  set (gap := (target_income_at i - total_fixed_income_at i)%Q).
  split; [apply clip_Qmax|].
  split.
  - rewrite clip_Qmax. apply Q.le_max_l.
  - intros Hle. rewrite clip_Qmax. apply Q.max_l. unfold gap. lra.
Qed.

(** C6. In every row, [PV_of_Shortfall] is
    [Shortfall / (1 + investment_return) ^ i] at position [i], so the first
    row is not discounted, and [total_needed_at_retirement] is the sum of
    [PV_of_Shortfall] over the rows. *)
Theorem C6_present_value_and_total :
  exists p, compute_projection = Py.Ok p /\
    (forall (i : nat) row,
        DataFrame.iloc (Projection.df p) i = Some row ->
        ProjectionRow.Ret_Year_Index row = Z.of_nat i /\
        (ProjectionRow.PV_of_Shortfall row
         == ProjectionRow.Shortfall row
            / (1 + investment_return) ^ Z.of_nat i)%Q /\
        (i = 0%nat ->
         (ProjectionRow.PV_of_Shortfall row
          == ProjectionRow.Shortfall row)%Q)) /\
    (Projection.total_needed_at_retirement p
     == fold_right Qplus 0
          (map ProjectionRow.PV_of_Shortfall
               (DataFrame.rows (Projection.df p))))%Q.
Proof.
  returned. split.
  - intros i row H. row_of H.
    unfold Np.true_divide, Np.power.
    split; [reflexivity|]. split; [reflexivity|].
    intros ->. cbn [Z.of_nat Qpower]. field.
  - unfold total_needed_at_retirement. rewrite sum_fold_right, rows_df.
    unfold df; cbn [DataFrame.PV_of_Shortfall].
    rewrite PV_of_Shortfall_map, map_map. reflexivity.
Qed.


(** C8. With [years_to_retirement = N > 0] the function returns, and for a
    remaining need [R > 0] the annual savings are [R / N] when
    [investment_return] is [0] and
    [R / (((1 + investment_return) ^ N - 1) / investment_return)] otherwise;
    for [R = 0] they are [0]. *)
Theorem C8_annual_savings_needed :
  exists p, compute_projection = Py.Ok p /\
    Projection.years_to_retirement p = retirement_start_year - current_year /\
    (0 < Projection.years_to_retirement p ->
     ((0 < Projection.remaining_needed p)%Q ->
      ((investment_return == 0)%Q ->
       (Projection.annual_savings_needed p
        == Projection.remaining_needed p
           / inject_Z (Projection.years_to_retirement p))%Q) /\
      (~ (investment_return == 0)%Q ->
       (Projection.annual_savings_needed p
        == Projection.remaining_needed p
           / (((1 + investment_return) ^ Projection.years_to_retirement p - 1)
              / investment_return))%Q)) /\
     ((Projection.remaining_needed p == 0)%Q ->
      (Projection.annual_savings_needed p == 0)%Q)).
Proof.
  returned. split; [reflexivity|].
  intros HN. apply Z.leb_gt in HN. rewrite HN.
  set (R := Py.max 0 _).
  split.
  - intros HR.
    assert (ER : Qeq_bool R 0 = false).
    { destruct (Qeq_bool R 0) eqn:E; [|reflexivity].
      apply Qeq_bool_iff in E. rewrite E in HR. discriminate HR. }
    rewrite ER. split; intros Hr.
    + apply Qeq_bool_iff in Hr. rewrite Hr. reflexivity.
    + destruct (Qeq_bool investment_return 0) eqn:E; [|reflexivity].
      apply Qeq_bool_iff in E. contradiction.
  - intros HR. apply Qeq_bool_iff in HR. rewrite HR. reflexivity.
Qed.

(** C9, for a positive base income need.  With [inflation > 0] and
    [base_income_need > 0] the
    [Target_Income] of each row is strictly below that of the next row. *)
Theorem C9_target_income_strictly_increasing :
  (0 < inflation)%Q -> (0 < base_income_need)%Q ->
  exists p, compute_projection = Py.Ok p /\
    forall (i : nat) row next,
      DataFrame.iloc (Projection.df p) i = Some row ->
      DataFrame.iloc (Projection.df p) (S i) = Some next ->
      (ProjectionRow.Target_Income row < ProjectionRow.Target_Income next)%Q.
Proof.
  intros Hinfl Hbase. returned. intros i row next H H'. row_of H. row_of H'.
  unfold target_income_at, Np.power.
  replace (years_to_retirement + Z.of_nat (S i))
    with (years_to_retirement + Z.of_nat i + 1) by lia.
  rewrite Qpower_succ by lra.
  set (x := ((1 + inflation) ^ (years_to_retirement + Z.of_nat i))%Q).
  assert (Hx : (0 < x)%Q) by (apply Qpower_0_lt; lra).
  assert (Hbx : (0 < base_income_need * x)%Q)
    by (apply Qmult_lt_0_compat; assumption).
  nra.
Qed.

Lemma fixed_income_at_nonneg (start_value : Q) (start_age : Z) (k : nat) :
  (0 <= cola)%Q -> (0 <= start_value)%Q ->
  (0 <= fixed_income_at start_value start_age k)%Q.
Proof.
  intros Hc Hv. unfold fixed_income_at, Np.power.
  destruct (start_age <=? age_at k); [|lra].
  apply Qmult_le_0_compat; [exact Hv|]. apply Qpower_0_le. lra.
Qed.

Lemma fixed_income_at_mono (start_value : Q) (start_age : Z) (k : nat) :
  (0 <= cola)%Q -> (0 <= start_value)%Q ->
  (fixed_income_at start_value start_age k
   <= fixed_income_at start_value start_age (S k))%Q.
Proof.
  intros Hc Hv.
  pose proof (fixed_income_at_nonneg start_value start_age (S k) Hc Hv)
    as Hnext.
  revert Hnext. unfold fixed_income_at, Np.power.
  assert (Hage : age_at (S k) = age_at k + 1) by (unfold age_at; lia).
  rewrite Hage.
  destruct (start_age <=? age_at k) eqn:E; [|tauto].
  apply Z.leb_le in E.
  replace (start_age <=? age_at k + 1) with true
    by (symmetry; apply Z.leb_le; lia).
  intros _.
  replace (age_at k + 1 - start_age) with (age_at k - start_age + 1) by lia.
  rewrite Qpower_succ by lra.
  set (x := ((1 + cola) ^ (age_at k - start_age))%Q).
  assert (Hx : (0 <= x)%Q) by (apply Qpower_0_le; lra).
  assert (Hvx : (0 <= start_value * x)%Q)
    by (apply Qmult_le_0_compat; assumption).
  nra.
Qed.

(** C10. With [cola >= 0] and non-negative start values, each of
    [Pension_1], [Pension_2] and [Social_Security], and with them
    [Total_Fixed_Income], is at most its value in the next row; a stream
    that has started is multiplied by [1 + cola] from one row to the
    next. *)
Theorem C10_fixed_income_non_decreasing :
  (0 <= cola)%Q ->
  (0 <= p1_start_value)%Q -> (0 <= p2_start_value)%Q ->
  (0 <= ss_start_value)%Q ->
  exists p, compute_projection = Py.Ok p /\
    forall (i : nat) row next,
      DataFrame.iloc (Projection.df p) i = Some row ->
      DataFrame.iloc (Projection.df p) (S i) = Some next ->
      (ProjectionRow.Pension_1 row <= ProjectionRow.Pension_1 next)%Q /\
      (ProjectionRow.Pension_2 row <= ProjectionRow.Pension_2 next)%Q /\
      (ProjectionRow.Social_Security row
       <= ProjectionRow.Social_Security next)%Q /\
      (ProjectionRow.Total_Fixed_Income row
       <= ProjectionRow.Total_Fixed_Income next)%Q /\
      (p1_start_age <= ProjectionRow.Age row ->
       (ProjectionRow.Pension_1 next
        == ProjectionRow.Pension_1 row * (1 + cola))%Q) /\
      (p2_start_age <= ProjectionRow.Age row ->
       (ProjectionRow.Pension_2 next
        == ProjectionRow.Pension_2 row * (1 + cola))%Q) /\
      (ss_start_age <= ProjectionRow.Age row ->
       (ProjectionRow.Social_Security next
        == ProjectionRow.Social_Security row * (1 + cola))%Q).
Proof.
  intros Hc H1 H2 Hs. returned. intros i row next H H'. row_of H. row_of H'.
  pose proof (fixed_income_at_mono p1_start_value p1_start_age i Hc H1) as M1.
  pose proof (fixed_income_at_mono p2_start_value p2_start_age i Hc H2) as M2.
  pose proof (fixed_income_at_mono ss_start_value ss_start_age i Hc Hs) as Ms.
  assert (Hage : age_at (S i) = age_at i + 1) by (unfold age_at; lia).
  assert (G : forall v a, a <= age_at i ->
            (fixed_income_at v a (S i)
             == fixed_income_at v a i * (1 + cola))%Q).
  { intros v a Ha. unfold fixed_income_at, Np.power. rewrite Hage.
    replace (a <=? age_at i) with true by (symmetry; apply Z.leb_le; lia).
    replace (a <=? age_at i + 1) with true by (symmetry; apply Z.leb_le; lia).
    replace (age_at i + 1 - a) with (age_at i - a + 1) by lia.
    rewrite Qpower_succ by lra. ring. }
  unfold total_fixed_income_at.
  repeat split; try assumption; try (apply G); lra.
Qed.

(** C1, as the code has it.  With [retirement_years < 1] the function
    validates nothing and raises nothing: it returns a table of zero rows, and
    [total_needed_at_retirement] is [0]. *)
Theorem C1_no_rows_below_one_year :
  retirement_years < 1 ->
  exists p, compute_projection = Py.Ok p /\
    DataFrame.len (Projection.df p) = 0 /\
    DataFrame.rows (Projection.df p) = [] /\
    (forall i, DataFrame.iloc (Projection.df p) i = None) /\
    (Projection.total_needed_at_retirement p == 0)%Q.
Proof.
  intros Hry. returned.
  assert (Hn : Z.to_nat retirement_years = 0%nat) by lia.
  split; [rewrite len_df; lia|].
  split; [rewrite rows_df, Hn; reflexivity|].
  split; [intros i; rewrite iloc_df, Hn; reflexivity|].
  unfold total_needed_at_retirement, df; cbn [DataFrame.PV_of_Shortfall].
  rewrite PV_of_Shortfall_map, Hn. reflexivity.
Qed.

(** ** Further properties of the table and the summary metrics *)

(** ** Further properties of the table and the summary metrics *)

Lemma shortfall_at_nonneg (k : nat) : (0 <= shortfall_at k)%Q.
Proof.
  unfold shortfall_at. cbv zeta. rewrite clip_Qmax. apply Q.le_max_l.
Qed.

Lemma Qdiv_nonneg (x y : Q) : (0 <= x)%Q -> (0 < y)%Q -> (0 <= x / y)%Q.
Proof.
  intros Hx Hy. apply Qle_shift_div_l; [exact Hy|]. lra.
Qed.


Lemma sum_map_nonneg {I : Type} (f : I -> Q) (l : list I) :
  (forall k, (0 <= f k)%Q) -> (0 <= fold_right Qplus 0 (map f l))%Q.
Proof.
  intros Hf. induction l as [|x l IH]; simpl; [lra|].
  specialize (Hf x). lra.
Qed.

Lemma sum_map_le {I : Type} (f g : I -> Q) (l : list I) :
  (forall k, (f k <= g k)%Q) ->
  (fold_right Qplus 0 (map f l) <= fold_right Qplus 0 (map g l))%Q.
Proof.
  intros Hfg. induction l as [|x l IH]; simpl; [lra|].
  specialize (Hfg x). lra.
Qed.

Lemma sum_map_ext {I : Type} (f g : I -> Q) (l : list I) :
  (forall k, (f k == g k)%Q) ->
  (fold_right Qplus 0 (map f l) == fold_right Qplus 0 (map g l))%Q.
Proof.
  intros Hfg. induction l as [|x l IH]; simpl; [reflexivity|].
  rewrite IH, (Hfg x). reflexivity.
Qed.

Lemma total_needed_as_sum :
  (total_needed_at_retirement
   == fold_right Qplus 0
        (map (fun k => ProjectionRow.PV_of_Shortfall (row_at k))
             (seq 0 (Z.to_nat retirement_years))))%Q.
Proof.
  unfold total_needed_at_retirement. rewrite sum_fold_right.
  unfold df; cbn [DataFrame.PV_of_Shortfall].
  rewrite PV_of_Shortfall_map. reflexivity.
Qed.




Lemma rows_sum (f : ProjectionRow.t -> Q) :
  fold_right Qplus 0%Q (map f (DataFrame.rows df))
  = fold_right Qplus 0%Q
      (map (fun k => f (row_at k)) (seq 0 (Z.to_nat retirement_years))).
Proof.
  rewrite rows_df, map_map. reflexivity.
Qed.

Lemma fixed_income_at_nonneg_from (start_value : Q) (start_age : Z) (k : nat) :
  (0 <= 1 + cola)%Q -> (0 <= start_value)%Q ->
  (0 <= fixed_income_at start_value start_age k)%Q.
Proof.
  intros Hc Hv. unfold fixed_income_at, Np.power.
  destruct (start_age <=? age_at k); [|lra].
  apply Qmult_le_0_compat; [exact Hv|]. apply Qpower_0_le. exact Hc.
Qed.

(** X1. The returned [retirement_age] is
    [current_age + (retirement_start_year - current_year)], and the row at
    position [i] has [Age = retirement_age + i]: the first row is the year
    the retirement age is reached. *)
Theorem X1_retirement_age_is_first_age :
  exists p, compute_projection = Py.Ok p /\
    Projection.retirement_age p
    = current_age + (retirement_start_year - current_year) /\
    forall (i : nat) row,
      DataFrame.iloc (Projection.df p) i = Some row ->
      ProjectionRow.Age row = Projection.retirement_age p + Z.of_nat i.
Proof.
  returned. split; [reflexivity|].
  intros i row H. row_of H. unfold age_at, years_to_retirement. lia.
Qed.

(** X2. With [investment_return > -1] no present value is negative, and
    neither is [total_needed_at_retirement]. *)
Theorem X2_total_needed_non_negative :
  (0 < 1 + investment_return)%Q ->
  exists p, compute_projection = Py.Ok p /\
    (forall (i : nat) row,
        DataFrame.iloc (Projection.df p) i = Some row ->
        (0 <= ProjectionRow.PV_of_Shortfall row)%Q) /\
    (0 <= Projection.total_needed_at_retirement p)%Q.
Proof.
  intros Hr. returned.
  assert (G : forall k, (0 <= ProjectionRow.PV_of_Shortfall (row_at k))%Q).
  { intros k. cbn [row_at ProjectionRow.PV_of_Shortfall].
    unfold Np.true_divide, Np.power.
    apply Qdiv_nonneg; [apply shortfall_at_nonneg|].
    apply Qpower_0_lt. exact Hr. }
  split.
  - intros i row H. apply iloc_df_inv in H. destruct H as [_ ->]. apply G.
  - rewrite total_needed_as_sum. apply sum_map_nonneg. exact G.
Qed.



(** X5. With [investment_return = 0] nothing is discounted: in every row
    [PV_of_Shortfall = Shortfall], and [total_needed_at_retirement] is the
    plain sum of the shortfalls. *)
Theorem X5_zero_rate_total_is_plain_sum :
  (investment_return == 0)%Q ->
  exists p, compute_projection = Py.Ok p /\
    (forall (i : nat) row,
        DataFrame.iloc (Projection.df p) i = Some row ->
        (ProjectionRow.PV_of_Shortfall row == ProjectionRow.Shortfall row)%Q) /\
    (Projection.total_needed_at_retirement p
     == fold_right Qplus 0
          (map ProjectionRow.Shortfall (DataFrame.rows (Projection.df p))))%Q.
Proof.
  intros Hr. returned.
  assert (G : forall k,
             (ProjectionRow.PV_of_Shortfall (row_at k)
              == ProjectionRow.Shortfall (row_at k))%Q).
  { intros k.
    cbn [row_at ProjectionRow.PV_of_Shortfall ProjectionRow.Shortfall].
    unfold Np.true_divide, Np.power.
    rewrite Hr. setoid_replace (1 + 0)%Q with 1%Q by ring.
    rewrite Qpower_1. field. }
  split.
  - intros i row H. apply iloc_df_inv in H. destruct H as [_ ->]. apply G.
  - rewrite total_needed_as_sum, rows_sum. apply sum_map_ext. exact G.
Qed.

(** X6. With [cola >= -1] and non-negative start values, no stream and no
    [Total_Fixed_Income] is negative, so the fixed income never adds to the
    need: [Shortfall <= max(0, Target_Income)] in every row. *)
Theorem X6_shortfall_at_most_target :
  (0 <= 1 + cola)%Q ->
  (0 <= p1_start_value)%Q -> (0 <= p2_start_value)%Q ->
  (0 <= ss_start_value)%Q ->
  exists p, compute_projection = Py.Ok p /\
    forall (i : nat) row,
      DataFrame.iloc (Projection.df p) i = Some row ->
      (0 <= ProjectionRow.Total_Fixed_Income row)%Q /\
      (ProjectionRow.Shortfall row
       <= Qmax 0 (ProjectionRow.Target_Income row))%Q.
Proof.
  intros Hc H1 H2 Hs. returned. intros i row H. row_of H.
  pose proof (fixed_income_at_nonneg_from p1_start_value p1_start_age i Hc H1).
  pose proof (fixed_income_at_nonneg_from p2_start_value p2_start_age i Hc H2).
  pose proof (fixed_income_at_nonneg_from ss_start_value ss_start_age i Hc Hs).
  assert (HF : (0 <= total_fixed_income_at i)%Q)
    by (unfold total_fixed_income_at; lra).
  split; [exact HF|].
  unfold shortfall_at. cbv zeta. rewrite clip_Qmax.
  apply Q.max_le_compat_l. lra.
Qed.

(** X7. With [investment_return >= 0] discounting never raises a
    shortfall: [PV_of_Shortfall <= Shortfall] in every row, and
    [total_needed_at_retirement] is at most the sum of the shortfalls. *)
Theorem X7_discounting_never_raises :
  (0 <= investment_return)%Q ->
  exists p, compute_projection = Py.Ok p /\
    (forall (i : nat) row,
        DataFrame.iloc (Projection.df p) i = Some row ->
        (ProjectionRow.PV_of_Shortfall row <= ProjectionRow.Shortfall row)%Q) /\
    (Projection.total_needed_at_retirement p
     <= fold_right Qplus 0
          (map ProjectionRow.Shortfall (DataFrame.rows (Projection.df p))))%Q.
Proof.
  intros Hr. returned.
  assert (G : forall k,
             (ProjectionRow.PV_of_Shortfall (row_at k)
              <= ProjectionRow.Shortfall (row_at k))%Q).
  { intros k.
    cbn [row_at ProjectionRow.PV_of_Shortfall ProjectionRow.Shortfall].
    unfold Np.true_divide, Np.power.
    pose proof (shortfall_at_nonneg k) as Hs.
    assert (Hx : (1 <= (1 + investment_return) ^ Z.of_nat k)%Q)
      by (apply Qpower_1_le; [lra|lia]).
    apply Qle_shift_div_r; [lra|]. nra. }
  split.
  - intros i row H. apply iloc_df_inv in H. destruct H as [_ ->]. apply G.
  - rewrite total_needed_as_sum, rows_sum. apply sum_map_le. exact G.
Qed.


End compute_projection.

(** ** The theorems at concrete inputs

    The inputs are the defaults of the signature,
    [compute_projection 2025 51 20000 2039 25 64000 0.03 0.03 0.05 16000 55
    29400 65 (800 * 12) 62], with one argument changed where a branch other
    than the default one is exercised. *)

Lemma Ok_inj {A : Type} (a b : A) : Py.Ok a = Py.Ok b -> a = b.
Proof.
  intros H. congruence.
Qed.

(** Replaces the result [p] of a call by the components
    [compute_projection_returns] gives. *)
Ltac evaluated Hp :=
  rewrite compute_projection_returns in Hp; apply Ok_inj in Hp; subst;
  cbn [Projection.df Projection.total_needed_at_retirement
       Projection.fv_current_savings Projection.remaining_needed
       Projection.annual_savings_needed Projection.years_to_retirement
       Projection.retirement_age];
  try rewrite !iloc_df.

(** With [retirement_years = 0] the call returns a table without rows: it
    does not fail, with a validation error or any other. *)
Lemma C1_counterexample :
  0 < 1 /\
  (forall e,
      compute_projection 2025 51 20000 2039 0 64000 0.03 0.03 0.05
      16000 55 29400 65 (800 * 12) 62
      <> Py.Raise e) /\
  exists p,
    compute_projection 2025 51 20000 2039 0 64000 0.03 0.03 0.05
      16000 55 29400 65 (800 * 12) 62
    = Py.Ok p /\
    DataFrame.rows (Projection.df p) = [].
Proof.
  split; [reflexivity|]. split.
  - intros e H. rewrite compute_projection_returns in H. discriminate H.
  - eexists. split; [apply compute_projection_returns|].
    cbn [Projection.df]. rewrite rows_df. reflexivity.
Qed.

Lemma C1_witness :
  0 < 1 /\
  exists p,
    compute_projection 2025 51 20000 2039 0 64000 0.03 0.03 0.05
      16000 55 29400 65 (800 * 12) 62
    = Py.Ok p /\
    DataFrame.len (Projection.df p) = 0.
Proof.
  split; [reflexivity|].
  destruct (C1_no_rows_below_one_year
               2025 51 20000 2039 0 64000 0.03 0.03 0.05
               16000 55 29400 65 (800 * 12) 62)
    as (p & Hp & Hlen & _); [reflexivity|].
  exists p. split; assumption.
Defined.

Lemma C2_witness :
  1 <= 25 /\
  exists p,
    compute_projection 2025 51 20000 2039 25 64000 0.03 0.03 0.05
      16000 55 29400 65 (800 * 12) 62
    = Py.Ok p /\
    DataFrame.len (Projection.df p) = 25 /\
    exists row,
      DataFrame.iloc (Projection.df p) 24 = Some row /\
      ProjectionRow.Year row = 2063 /\
      ProjectionRow.Ret_Year_Index row = 24 /\
      ProjectionRow.Age row = 89.
Proof.
  split; [lia|].
  destruct (C2_row_count_and_index_columns
               2025 51 20000 2039 25 64000 0.03 0.03 0.05
               16000 55 29400 65 (800 * 12) 62)
    as (p & Hp & Hlen & _ & Hrow); [lia|].
  exists p. split; [exact Hp|]. split; [exact Hlen|].
  destruct (Hrow 24) as (row & Hi & Hy & Hk & Ha); [lia|].
  exists row. split; [exact Hi|]. rewrite Ha, Hy. auto.
Defined.

Lemma C3_witness :
  exists p row,
    compute_projection 2025 51 20000 2039 25 64000 0.03 0.03 0.05
      16000 55 29400 65 (800 * 12) 62
    = Py.Ok p /\
    DataFrame.iloc (Projection.df p) 2 = Some row /\
    (ProjectionRow.Target_Income row == 64000 * (1 + 0.03) ^ (14 + 2))%Q.
Proof.
  destruct (C3_target_income_formula
               2025 51 20000 2039 25 64000 0.03 0.03 0.05
               16000 55 29400 65 (800 * 12) 62)
    as (p & Hp & Hy & H).
  assert (E : exists row, DataFrame.iloc (Projection.df p) 2 = Some row).
  { evaluated Hp. eexists. reflexivity. }
  destruct E as [row E]. exists p, row.
  split; [exact Hp|]. split; [exact E|].
  destruct (H 2%nat row E) as [Hk HT]. rewrite HT, Hy, Hk. reflexivity.
Defined.

(** Pension 2 moved to age 70: the first row, at age 65, has no Pension 2
    yet, while Pension 1 has run for ten years. *)
Lemma C4_witness :
  exists p row,
    compute_projection 2025 51 20000 2039 25 64000 0.03 0.03 0.05
      16000 55 29400 70 (800 * 12) 62
    = Py.Ok p /\
    DataFrame.iloc (Projection.df p) 0 = Some row /\
    ProjectionRow.Age row = 65 /\
    (ProjectionRow.Pension_1 row == 16000 * (1 + 0.03) ^ 10)%Q /\
    (ProjectionRow.Pension_2 row == 0)%Q /\
    (ProjectionRow.Total_Fixed_Income row
     == ProjectionRow.Pension_1 row + ProjectionRow.Pension_2 row
        + ProjectionRow.Social_Security row)%Q.
Proof.
  destruct (C4_fixed_income_streams
               2025 51 20000 2039 25 64000 0.03 0.03 0.05
               16000 55 29400 70 (800 * 12) 62)
    as (p & Hp & H).
  assert (E : exists row, DataFrame.iloc (Projection.df p) 0 = Some row
                          /\ ProjectionRow.Age row = 65).
  { evaluated Hp. eexists. split; reflexivity. }
  destruct E as (row & E & Hage). exists p, row.
  split; [exact Hp|]. split; [exact E|]. split; [exact Hage|].
  destruct (H 0%nat row E) as (_ & H1 & H2 & _ & _ & _ & Ht).
  rewrite Hage in H1, H2.
  split; [apply H1; lia|]. split; [apply H2; lia|]. exact Ht.
Defined.

(** A target of 10000: the pensions cover it in the first year, whose
    shortfall is 0. *)
Lemma C5_witness :
  exists p row,
    compute_projection 2025 51 20000 2039 25 10000 0.03 0.03 0.05
      16000 55 29400 65 (800 * 12) 62
    = Py.Ok p /\
    DataFrame.iloc (Projection.df p) 0 = Some row /\
    (ProjectionRow.Target_Income row
     <= ProjectionRow.Total_Fixed_Income row)%Q /\
    (ProjectionRow.Shortfall row == 0)%Q.
Proof.
  destruct (C5_shortfall_floor
               2025 51 20000 2039 25 10000 0.03 0.03 0.05
               16000 55 29400 65 (800 * 12) 62)
    as (p & Hp & H).
  assert (E : exists row,
             DataFrame.iloc (Projection.df p) 0 = Some row /\
             (ProjectionRow.Target_Income row
              <= ProjectionRow.Total_Fixed_Income row)%Q).
  { evaluated Hp. eexists. split; [reflexivity|]. vm_compute. discriminate. }
  destruct E as (row & E & Hle). exists p, row.
  split; [exact Hp|]. split; [exact E|]. split; [exact Hle|].
  destruct (H 0%nat row E) as (_ & _ & H0). apply H0. exact Hle.
Defined.

Lemma C6_witness :
  exists p row,
    compute_projection 2025 51 20000 2039 25 64000 0.03 0.03 0.05
      16000 55 29400 65 (800 * 12) 62
    = Py.Ok p /\
    DataFrame.iloc (Projection.df p) 0 = Some row /\
    (ProjectionRow.PV_of_Shortfall row == ProjectionRow.Shortfall row)%Q.
Proof.
  destruct (C6_present_value_and_total
               2025 51 20000 2039 25 64000 0.03 0.03 0.05
               16000 55 29400 65 (800 * 12) 62)
    as (p & Hp & H & _).
  assert (E : exists row, DataFrame.iloc (Projection.df p) 0 = Some row).
  { evaluated Hp. eexists. reflexivity. }
  destruct E as [row E]. exists p, row.
  split; [exact Hp|]. split; [exact E|].
  destruct (H 0%nat row E) as (_ & _ & H0). apply H0. reflexivity.
Defined.


(** Three retirement years: at the default rate of 5%, at a rate of 0, and
    with savings that already cover the need. *)
Lemma C8_witness :
  (exists p,
      compute_projection 2025 51 20000 2039 3 64000 0.03 0.03 0.05
      16000 55 29400 65 (800 * 12) 62
      = Py.Ok p /\
      (0 < Projection.remaining_needed p)%Q /\
      (Projection.annual_savings_needed p
       == Projection.remaining_needed p / (((1 + 0.05) ^ 14 - 1) / 0.05))%Q) /\
  (exists p,
      compute_projection 2025 51 20000 2039 3 64000 0.03 0.03 0
      16000 55 29400 65 (800 * 12) 62
      = Py.Ok p /\
      (0 < Projection.remaining_needed p)%Q /\
      (Projection.annual_savings_needed p
       == Projection.remaining_needed p / inject_Z 14)%Q) /\
  (exists p,
      compute_projection 2025 51 1000000000 2039 3 64000 0.03 0.03 0.05
      16000 55 29400 65 (800 * 12) 62
      = Py.Ok p /\
      (Projection.remaining_needed p == 0)%Q /\
      (Projection.annual_savings_needed p == 0)%Q).
Proof.
  split; [|split].
  - destruct (C8_annual_savings_needed
                 2025 51 20000 2039 3 64000 0.03 0.03 0.05
                 16000 55 29400 65 (800 * 12) 62)
      as (p & Hp & Hy & H).
    exists p. split; [exact Hp|].
    assert (HN : 0 < Projection.years_to_retirement p)
      by (rewrite Hy; reflexivity).
    assert (HR : (0 < Projection.remaining_needed p)%Q)
      by (clear H; evaluated Hp; vm_compute; reflexivity).
    split; [exact HR|].
    destruct (H HN) as [Hpos _]. destruct (Hpos HR) as [_ Hrate].
    rewrite Hrate, Hy; [reflexivity|]. intros C. discriminate C.
  - destruct (C8_annual_savings_needed
                 2025 51 20000 2039 3 64000 0.03 0.03 0
                 16000 55 29400 65 (800 * 12) 62)
      as (p & Hp & Hy & H).
    exists p. split; [exact Hp|].
    assert (HN : 0 < Projection.years_to_retirement p)
      by (rewrite Hy; reflexivity).
    assert (HR : (0 < Projection.remaining_needed p)%Q)
      by (clear H; evaluated Hp; vm_compute; reflexivity).
    split; [exact HR|].
    destruct (H HN) as [Hpos _]. destruct (Hpos HR) as [Hzero _].
    rewrite Hzero, Hy; reflexivity.
  - destruct (C8_annual_savings_needed
                 2025 51 1000000000 2039 3 64000 0.03 0.03 0.05
                 16000 55 29400 65 (800 * 12) 62)
      as (p & Hp & Hy & H).
    exists p. split; [exact Hp|].
    assert (HN : 0 < Projection.years_to_retirement p)
      by (rewrite Hy; reflexivity).
    assert (HR : (Projection.remaining_needed p == 0)%Q)
      by (clear H; evaluated Hp; vm_compute; reflexivity).
    split; [exact HR|].
    destruct (H HN) as [_ Hnone]. exact (Hnone HR).
Defined.

(** A base income need of 0 with inflation at 3%: every target is 0, so the
    second row is not above the first. *)
Lemma C9_counterexample :
  (0 < 0.03)%Q /\
  exists p row next,
    compute_projection 2025 51 20000 2039 25 0 0.03 0.03 0.05
      16000 55 29400 65 (800 * 12) 62
    = Py.Ok p /\
    DataFrame.iloc (Projection.df p) 0 = Some row /\
    DataFrame.iloc (Projection.df p) 1 = Some next /\
    ~ (ProjectionRow.Target_Income row < ProjectionRow.Target_Income next)%Q.
Proof.
  split; [reflexivity|].
  eexists. eexists. eexists.
  split; [apply compute_projection_returns|].
  cbn [Projection.df]. rewrite !iloc_df.
  split; [reflexivity|]. split; [reflexivity|].
  intros H. vm_compute in H. discriminate H.
Qed.

Lemma C9_witness :
  (0 < 0.03)%Q /\ (0 < 64000)%Q /\
  exists p row next,
    compute_projection 2025 51 20000 2039 25 64000 0.03 0.03 0.05
      16000 55 29400 65 (800 * 12) 62
    = Py.Ok p /\
    DataFrame.iloc (Projection.df p) 0 = Some row /\
    DataFrame.iloc (Projection.df p) 1 = Some next /\
    (ProjectionRow.Target_Income row < ProjectionRow.Target_Income next)%Q.
Proof.
  split; [reflexivity|]. split; [reflexivity|].
  destruct (C9_target_income_strictly_increasing
               2025 51 20000 2039 25 64000 0.03 0.03 0.05
               16000 55 29400 65 (800 * 12) 62)
    as (p & Hp & H); [reflexivity|reflexivity|].
  assert (E : exists row next,
             DataFrame.iloc (Projection.df p) 0 = Some row /\
             DataFrame.iloc (Projection.df p) 1 = Some next).
  { clear H. evaluated Hp. eexists. eexists. split; reflexivity. }
  destruct E as (row & next & E0 & E1). exists p, row, next.
  split; [exact Hp|]. split; [exact E0|]. split; [exact E1|].
  exact (H 0%nat row next E0 E1).
Defined.

(** Pension 2 moved to age 66: it is 0 in the first row, at age 65, and
    starts in the second. *)
Lemma C10_witness :
  (0 <= 0.03)%Q /\ (0 <= 16000)%Q /\ (0 <= 29400)%Q /\ (0 <= 800 * 12)%Q /\
  exists p row next,
    compute_projection 2025 51 20000 2039 25 64000 0.03 0.03 0.05
      16000 55 29400 66 (800 * 12) 62
    = Py.Ok p /\
    DataFrame.iloc (Projection.df p) 0 = Some row /\
    DataFrame.iloc (Projection.df p) 1 = Some next /\
    (ProjectionRow.Pension_2 row <= ProjectionRow.Pension_2 next)%Q /\
    (ProjectionRow.Total_Fixed_Income row
     <= ProjectionRow.Total_Fixed_Income next)%Q /\
    (ProjectionRow.Pension_1 next
     == ProjectionRow.Pension_1 row * (1 + 0.03))%Q.
Proof.
  repeat (split; [discriminate|]).
  destruct (C10_fixed_income_non_decreasing
               2025 51 20000 2039 25 64000 0.03 0.03 0.05
               16000 55 29400 66 (800 * 12) 62)
    as (p & Hp & H); [discriminate|discriminate|discriminate|discriminate|].
  assert (E : exists row next,
             DataFrame.iloc (Projection.df p) 0 = Some row /\
             DataFrame.iloc (Projection.df p) 1 = Some next /\
             ProjectionRow.Age row = 65).
  { clear H. evaluated Hp. eexists. eexists. repeat split; reflexivity. }
  destruct E as (row & next & E0 & E1 & Hage). exists p, row, next.
  split; [exact Hp|]. split; [exact E0|]. split; [exact E1|].
  destruct (H 0%nat row next E0 E1) as (_ & H2 & _ & Ht & Hg & _).
  split; [exact H2|]. split; [exact Ht|]. apply Hg. rewrite Hage. lia.
Defined.

(** ** The further properties at concrete inputs *)

(** ** The further properties at concrete inputs *)

Lemma X1_witness :
  exists p row,
    compute_projection 2025 51 20000 2039 25 64000 0.03 0.03 0.05
      16000 55 29400 65 (800 * 12) 62
    = Py.Ok p /\
    DataFrame.iloc (Projection.df p) 3 = Some row /\
    Projection.retirement_age p = 65 /\
    ProjectionRow.Age row = 68.
Proof.
  destruct (X1_retirement_age_is_first_age
               2025 51 20000 2039 25 64000 0.03 0.03 0.05
               16000 55 29400 65 (800 * 12) 62)
    as (p & Hp & Hage & H).
  assert (E : exists row, DataFrame.iloc (Projection.df p) 3 = Some row).
  { evaluated Hp. eexists. reflexivity. }
  destruct E as [row E]. exists p, row.
  split; [exact Hp|]. split; [exact E|]. split; [exact Hage|].
  rewrite (H 3%nat row E), Hage. reflexivity.
Defined.

Lemma X2_witness :
  (0 < 1 + 0.05)%Q /\
  exists p,
    compute_projection 2025 51 20000 2039 25 64000 0.03 0.03 0.05
      16000 55 29400 65 (800 * 12) 62
    = Py.Ok p /\
    (0 <= Projection.total_needed_at_retirement p)%Q.
Proof.
  split; [reflexivity|].
  destruct (X2_total_needed_non_negative
               2025 51 20000 2039 25 64000 0.03 0.03 0.05
               16000 55 29400 65 (800 * 12) 62)
    as (p & Hp & _ & H); [reflexivity|].
  exists p. split; assumption.
Defined.



Lemma X5_witness :
  (0 == 0)%Q /\
  exists p,
    compute_projection 2025 51 20000 2039 25 64000 0.03 0.03 0
      16000 55 29400 65 (800 * 12) 62
    = Py.Ok p /\
    (Projection.total_needed_at_retirement p
     == fold_right Qplus 0
          (map ProjectionRow.Shortfall (DataFrame.rows (Projection.df p))))%Q.
Proof.
  split; [reflexivity|].
  destruct (X5_zero_rate_total_is_plain_sum
               2025 51 20000 2039 25 64000 0.03 0.03 0
               16000 55 29400 65 (800 * 12) 62)
    as (p & Hp & _ & H); [reflexivity|].
  exists p. split; assumption.
Defined.

Lemma X6_witness :
  (0 <= 1 + 0.03)%Q /\ (0 <= 16000)%Q /\ (0 <= 29400)%Q /\
  (0 <= 800 * 12)%Q /\
  exists p row,
    compute_projection 2025 51 20000 2039 25 64000 0.03 0.03 0.05
      16000 55 29400 65 (800 * 12) 62
    = Py.Ok p /\
    DataFrame.iloc (Projection.df p) 0 = Some row /\
    (ProjectionRow.Shortfall row
     <= Qmax 0 (ProjectionRow.Target_Income row))%Q.
Proof.
  repeat (split; [discriminate|]).
  destruct (X6_shortfall_at_most_target
               2025 51 20000 2039 25 64000 0.03 0.03 0.05
               16000 55 29400 65 (800 * 12) 62)
    as (p & Hp & H); [discriminate|discriminate|discriminate|discriminate|].
  assert (E : exists row, DataFrame.iloc (Projection.df p) 0 = Some row).
  { evaluated Hp. eexists. reflexivity. }
  destruct E as [row E]. exists p, row.
  split; [exact Hp|]. split; [exact E|]. apply (H 0%nat row E).
Defined.

Lemma X7_witness :
  (0 <= 0.05)%Q /\
  exists p,
    compute_projection 2025 51 20000 2039 25 64000 0.03 0.03 0.05
      16000 55 29400 65 (800 * 12) 62
    = Py.Ok p /\
    (Projection.total_needed_at_retirement p
     <= fold_right Qplus 0
          (map ProjectionRow.Shortfall (DataFrame.rows (Projection.df p))))%Q.
Proof.
  split; [discriminate|].
  destruct (X7_discounting_never_raises
               2025 51 20000 2039 25 64000 0.03 0.03 0.05
               16000 55 29400 65 (800 * 12) 62)
    as (p & Hp & _ & H); [discriminate|].
  exists p. split; assumption.
Defined.

